(** * The deployment topology of [cdk/lib/cdk-stack.ts]

    A shallow embedding of the [CdkStack] constructor: the property records
    it passes to the CDK constructs, the construct tree it fills in, and the
    order in which it does so.  The CDK library itself is not part of the
    repository; the only call whose outcome depends on the world outside the
    constructor, [route53.HostedZone.fromLookup], is a parameter of the
    model.  [CdkStack_checked] is the same constructor against a library in
    which every call may throw. *)

From Stdlib Require Import String List Arith Lia Bool.
Import ListNotations.
Open Scope string_scope.

Set Implicit Arguments.

(** ** Property records, as the source writes them

    A TypeScript optional property [p?: T] is an [option T]; a property the
    source leaves out is [None]. *)

(** [s3.BucketEncryption] *)
Inductive BucketEncryption :=
| UNENCRYPTED
| KMS_MANAGED
| S3_MANAGED
| KMS
| DSSE.

(** [s3.BlockPublicAccess] options *)
Record BlockPublicAccess := {
  blockPublicAcls : bool;
  blockPublicPolicy : bool;
  ignorePublicAcls : bool;
  restrictPublicBuckets : bool
}.

(** [s3.BucketProps]: the property the stack sets, and the three that the
    stand-alone web-hosting variant of the bucket sets instead. *)
Record BucketProps := {
  encryption : option BucketEncryption;
  publicReadAccess : option bool;
  websiteIndexDocument : option string;
  blockPublicAccess : option BlockPublicAccess
}.

(** [new s3.Bucket(scope, id, props)] *)
Record Bucket := {
  bucket_id : string;
  bucket_props : BucketProps
}.

(** [route53.HostedZoneProviderProps] *)
Record HostedZoneProviderProps := {
  hz_domainName : string
}.

(** What a zone lookup resolves to: the attributes of [route53.IHostedZone]. *)
Record ZoneIdentity := {
  hostedZoneId : string;
  zoneName : string
}.

(** The handle [HostedZone.fromLookup(scope, id, query)] returns. *)
Record HostedZone := {
  hz_id : string;
  hz_query : HostedZoneProviderProps;
  hz_resolved : ZoneIdentity
}.

(** [acm.DnsValidatedCertificateProps] *)
Record DnsValidatedCertificateProps := {
  cert_domainName : string;
  cert_hostedZone : HostedZone;
  cert_region : option string
}.

(** [new acm.DnsValidatedCertificate(scope, id, props)] *)
Record DnsValidatedCertificate := {
  cert_id : string;
  cert_props : DnsValidatedCertificateProps
}.

(** [new origins.S3Origin(bucket)] *)
Record S3Origin := {
  origin_bucket : Bucket
}.

(** [cloudfront.ViewerProtocolPolicy] *)
Inductive ViewerProtocolPolicy :=
| HTTPS_ONLY
| REDIRECT_TO_HTTPS
| ALLOW_ALL.

(** [cloudfront.BehaviorOptions] *)
Record BehaviorOptions := {
  origin : S3Origin;
  viewerProtocolPolicy : option ViewerProtocolPolicy
}.

(** [cloudfront.DistributionProps]; an absent [domainNames] is the empty
    list. *)
Record DistributionProps := {
  defaultBehavior : BehaviorOptions;
  domainNames : list string;
  defaultRootObject : option string;
  certificate : option DnsValidatedCertificate
}.

(** [new cloudfront.Distribution(scope, id, props)] *)
Record Distribution := {
  dist_id : string;
  dist_props : DistributionProps
}.

(** [new route53Targets.CloudFrontTarget(distribution)] *)
Record CloudFrontTarget := {
  target_distribution : Distribution
}.

(** [route53.RecordTarget]: an alias to a managed endpoint, or plain
    values. *)
Inductive RecordTarget :=
| fromAlias (t : CloudFrontTarget)
| fromValues (vs : list string).

(** [route53.ARecordProps] *)
Record ARecordProps := {
  zone : HostedZone;
  recordName : option string;
  target : RecordTarget
}.

(** [new route53.ARecord(scope, id, props)] *)
Record ARecord := {
  rec_id : string;
  rec_props : ARecordProps
}.

(** A child of the stack in the construct tree. *)
Inductive Resource :=
| RBucket (b : Bucket)
| RHostedZone (z : HostedZone)
| RCertificate (c : DnsValidatedCertificate)
| RDistribution (d : Distribution)
| RARecord (r : ARecord).

(** ** The stack *)

(** [cdk.Environment] *)
Record Environment := {
  account : option string;
  region : option string
}.

(** [cdk.StackProps] *)
Record StackProps := {
  env : option Environment;
  stackName : option string;
  description : option string;
  terminationProtection : option bool
}.

(** The stack object [this]: what [super(scope, id, props)] records, and the
    children added so far, oldest first. *)
Record Stack (Scope : Type) := {
  stack_scope : Scope;
  stack_id : string;
  stack_props : option StackProps;
  children : list Resource
}.

Arguments Build_Stack {Scope}.

(** [super(scope, id, props)] *)
Definition super {Scope} (scope : Scope) (id : string)
    (props : option StackProps) : Stack Scope :=
  Build_Stack scope id props [].

Definition addChild {Scope} (this : Stack Scope) (r : Resource) : Stack Scope :=
  Build_Stack (stack_scope this) (stack_id this) (stack_props this)
              (children this ++ [r]).

(** ** Construction as a computation on [this]

    A constructor body runs against the stack object and either completes
    with a value or throws; what it added to the stack before throwing
    stays added. *)

Definition Build (Scope E A : Type) : Type :=
  Stack Scope -> (E + A) * Stack Scope.

Definition ret {Scope E A} (a : A) : Build Scope E A :=
  fun this => (inr a, this).

Definition bind {Scope E A B} (m : Build Scope E A)
    (k : A -> Build Scope E B) : Build Scope E B :=
  fun this =>
    match m this with
    | (inl e, this') => (inl e, this')
    | (inr a, this') => k a this'
    end.

Declare Scope build_scope.
Delimit Scope build_scope with build.
Notation "'const' x ':=' m ';' k" := (bind m (fun x => k))
  (at level 60, x name, m at next level, right associativity) : build_scope.

(** [HostedZone.fromLookup]: given the stack, the construct id and the query,
    the environment either resolves a zone or the call throws. *)
Definition ZoneLookup (Scope E : Type) : Type :=
  Stack Scope -> string -> HostedZoneProviderProps -> E + ZoneIdentity.

Section Constructs.
Context {Scope E : Type}.
Variable lookup : ZoneLookup Scope E.

Definition new_Bucket (id : string) (props : BucketProps)
    : Build Scope E Bucket :=
  fun this =>
    let b := {| bucket_id := id; bucket_props := props |} in
    (inr b, addChild this (RBucket b)).

Definition HostedZone_fromLookup (id : string)
    (query : HostedZoneProviderProps) : Build Scope E HostedZone :=
  fun this =>
    match lookup this id query with
    | inl e => (inl e, this)
    | inr z =>
        let h := {| hz_id := id; hz_query := query; hz_resolved := z |} in
        (inr h, addChild this (RHostedZone h))
    end.

Definition new_DnsValidatedCertificate (id : string)
    (props : DnsValidatedCertificateProps)
    : Build Scope E DnsValidatedCertificate :=
  fun this =>
    let c := {| cert_id := id; cert_props := props |} in
    (inr c, addChild this (RCertificate c)).

Definition new_Distribution (id : string) (props : DistributionProps)
    : Build Scope E Distribution :=
  fun this =>
    let d := {| dist_id := id; dist_props := props |} in
    (inr d, addChild this (RDistribution d)).

Definition new_ARecord (id : string) (props : ARecordProps)
    : Build Scope E ARecord :=
  fun this =>
    let r := {| rec_id := id; rec_props := props |} in
    (inr r, addChild this (RARecord r)).

(** ** [class CdkStack]

    [BASE_DOMAIN] is the module-level constant; the repository ships it as
    a placeholder for the deployer's own domain, so it is a parameter
    here. *)
Variable BASE_DOMAIN : string.

Definition CdkStack_body : Build Scope E unit :=
  (const bucket := new_Bucket "website-bucket"
     {| encryption := Some S3_MANAGED;
        publicReadAccess := None;
        websiteIndexDocument := None;
        blockPublicAccess := None |};
   const hostedZone := HostedZone_fromLookup "hosted-zone"
     {| hz_domainName := BASE_DOMAIN |};
   const certificate := new_DnsValidatedCertificate "certificate"
     {| cert_domainName := BASE_DOMAIN;
        cert_hostedZone := hostedZone;
        cert_region := Some "us-east-1" |};
   const distribution := new_Distribution "website-distribution"
     {| defaultBehavior :=
          {| origin := {| origin_bucket := bucket |};
             viewerProtocolPolicy := Some REDIRECT_TO_HTTPS |};
        domainNames := [BASE_DOMAIN];
        defaultRootObject := Some "index.html";
        certificate := Some certificate |};
   const DNSRecord := new_ARecord "DNSRecord"
     {| zone := hostedZone;
        recordName := Some BASE_DOMAIN;
        target := fromAlias {| target_distribution := distribution |} |};
   ret tt)%build.

Definition CdkStack (scope : Scope) (id : string)
    (props : option StackProps) : (E + unit) * Stack Scope :=
  CdkStack_body (super scope id props).

End Constructs.

(** The constant as the repository ships it. *)
Definition BASE_DOMAIN : string := "<YOUR_DOMAIN_HERE>".

(** ** Reading a construct tree *)

Definition node_id (r : Resource) : string :=
  match r with
  | RBucket b => bucket_id b
  | RHostedZone z => hz_id z
  | RCertificate c => cert_id c
  | RDistribution d => dist_id d
  | RARecord a => rec_id a
  end.

Fixpoint buckets (g : list Resource) : list Bucket :=
  match g with
  | [] => []
  | RBucket b :: g' => b :: buckets g'
  | _ :: g' => buckets g'
  end.

Fixpoint hostedZones (g : list Resource) : list HostedZone :=
  match g with
  | [] => []
  | RHostedZone z :: g' => z :: hostedZones g'
  | _ :: g' => hostedZones g'
  end.

Fixpoint certificates (g : list Resource) : list DnsValidatedCertificate :=
  match g with
  | [] => []
  | RCertificate c :: g' => c :: certificates g'
  | _ :: g' => certificates g'
  end.

Fixpoint distributions (g : list Resource) : list Distribution :=
  match g with
  | [] => []
  | RDistribution d :: g' => d :: distributions g'
  | _ :: g' => distributions g'
  end.

Fixpoint records (g : list Resource) : list ARecord :=
  match g with
  | [] => []
  | RARecord a :: g' => a :: records g'
  | _ :: g' => records g'
  end.

(** The constructs a construct was handed as properties: the ids of the
    nodes it refers to directly. *)
Definition depends_on (r : Resource) : list string :=
  match r with
  | RBucket _ => []
  | RHostedZone _ => []
  | RCertificate c => [hz_id (cert_hostedZone (cert_props c))]
  | RDistribution d =>
      bucket_id (origin_bucket (origin (defaultBehavior (dist_props d))))
      :: match certificate (dist_props d) with
         | Some c => [cert_id c]
         | None => []
         end
  | RARecord a =>
      hz_id (zone (rec_props a))
      :: match target (rec_props a) with
         | fromAlias t => [dist_id (target_distribution t)]
         | fromValues _ => []
         end
  end.

(** Dependency edges [(u, v)]: node [v] refers to node [u], so [u] is built
    before [v].  The edges coming into a node are its dependencies. *)
Definition edges (g : list Resource) : list (string * string) :=
  flat_map (fun r => map (fun u => (u, node_id r)) (depends_on r)) g.

Definition incoming (g : list Resource) (v : string) : list string :=
  map fst (filter (fun e => String.eqb (snd e) v) (edges g)).

(** A path of one or more edges. *)
Inductive reach (es : list (string * string)) : string -> string -> Prop :=
| reach_edge u v : In (u, v) es -> reach es u v
| reach_step u v w : In (u, v) es -> reach es v w -> reach es u w.

Definition acyclic (es : list (string * string)) : Prop :=
  forall n, ~ reach es n n.

(** Position of an id in a build order; ids that are not in it come last. *)
Fixpoint rank (order : list string) (n : string) : nat :=
  match order with
  | [] => 0
  | m :: order' => if String.eqb m n then 0 else S (rank order' n)
  end.

(** The domain names a construct carries. *)
Definition domain_fields (r : Resource) : list string :=
  match r with
  | RBucket _ => []
  | RHostedZone z => [hz_domainName (hz_query z)]
  | RCertificate c => [cert_domainName (cert_props c)]
  | RDistribution d => domainNames (dist_props d)
  | RARecord a =>
      match recordName (rec_props a) with
      | Some n => [n]
      | None => []
      end
  end.

(** Server-side encryption at rest is on. *)
Definition encryption_enabled (b : Bucket) : bool :=
  match encryption (bucket_props b) with
  | Some UNENCRYPTED | None => false
  | Some _ => true
  end.

(** The bucket carries some public-access setting: public reads, web-site
    hosting, or a block-public-access override. *)
Definition has_public_access_policy (b : Bucket) : bool :=
  match publicReadAccess (bucket_props b),
        websiteIndexDocument (bucket_props b),
        blockPublicAccess (bucket_props b) with
  | None, None, None => false
  | _, _, _ => true
  end.

(** The certificate attached to a distribution covers a domain name. *)
Definition covered_by_certificate (d : Distribution) (D : string) : Prop :=
  exists c, certificate (dist_props d) = Some c
            /\ cert_domainName (cert_props c) = D.

(** The distribution an alias record points at, if it is an alias. *)
Definition alias_target (a : ARecord) : option Distribution :=
  match target (rec_props a) with
  | fromAlias t => Some (target_distribution t)
  | fromValues _ => None
  end.

(** The stack as [fromLookup] receives it: the bucket is already a child. *)
Definition stack_at_lookup {Scope} (scope : Scope) (id : string)
    (props : option StackProps) : Stack Scope :=
  addChild (super scope id props)
    (RBucket {| bucket_id := "website-bucket";
                bucket_props :=
                  {| encryption := Some S3_MANAGED;
                     publicReadAccess := None;
                     websiteIndexDocument := None;
                     blockPublicAccess := None |} |}).

(** The outcome of the constructor's zone lookup. *)
Definition lookup_outcome {Scope E} (lookup : ZoneLookup Scope E)
    (D : string) (scope : Scope) (id : string) (props : option StackProps)
    : E + ZoneIdentity :=
  lookup (stack_at_lookup scope id props) "hosted-zone"
         {| hz_domainName := D |}.

(** The build order of the five constructs. *)
Definition build_order : list string :=
  ["website-bucket"; "hosted-zone"; "certificate"; "website-distribution";
   "DNSRecord"].

(** ** A zone registry *)

Inductive LookupError :=
| ZoneNotFound.

(** Modelled from the spec: the Zone Resolver of section 4.2, whose code is
    in the CDK library and not in the repository.  The zones registered in
    the target account are a list of (domain name, zone id); a lookup
    resolves the first zone registered for the domain and fails with
    [ZoneNotFound] when there is none. *)
Definition registry_lookup {Scope} (zones : list (string * string))
    : ZoneLookup Scope LookupError :=
  fun _ _ query =>
    match find (fun z => String.eqb (fst z) (hz_domainName query)) zones with
    | Some z => inr {| hostedZoneId := snd z;
                       zoneName := hz_domainName query |}
    | None => inl ZoneNotFound
    end.

(** ** References between constructs *)

(** The constructs a construct was handed as property values. *)
Definition referenced (r : Resource) : list Resource :=
  match r with
  | RBucket _ => []
  | RHostedZone _ => []
  | RCertificate c => [RHostedZone (cert_hostedZone (cert_props c))]
  | RDistribution d =>
      RBucket (origin_bucket (origin (defaultBehavior (dist_props d))))
      :: match certificate (dist_props d) with
         | Some c => [RCertificate c]
         | None => []
         end
  | RARecord a =>
      RHostedZone (zone (rec_props a))
      :: match target (rec_props a) with
         | fromAlias t => [RDistribution (target_distribution t)]
         | fromValues _ => []
         end
  end.

(** Every construct of [g] refers only to constructs of [earlier] or to
    constructs that precede it in [g]. *)
Fixpoint built_in_order (earlier g : list Resource) : Prop :=
  match g with
  | [] => True
  | r :: g' =>
      (forall x, In x (referenced r) -> In x earlier)
      /\ built_in_order (earlier ++ [r]) g'
  end.

(** ** The earlier stages of the stack

    The article that accompanies the stack builds it in three steps; the
    first two are the constructor bodies below, the third is [CdkStack]. *)
Module Tutorial.

Section Stages.
Context {Scope E : Type}.

(** "Creating the S3 bucket": a publicly readable web-site bucket. *)
Definition hosting_body : Build Scope E Bucket :=
  new_Bucket "website-bucket"
    {| encryption := None;
       publicReadAccess := Some true;
       websiteIndexDocument := Some "index.html";
       blockPublicAccess :=
         Some {| blockPublicAcls := false;
                 blockPublicPolicy := false;
                 ignorePublicAcls := false;
                 restrictPublicBuckets := false |} |}.

Definition CdkStack_hosting (scope : Scope) (id : string)
    (props : option StackProps) : (E + unit) * Stack Scope :=
  (const bucket := hosting_body;
   ret tt)%build (super scope id props).

(** "Creating the CloudFront distribution": the same bucket behind a
    distribution that has neither domain names nor a certificate. *)
Definition CdkStack_distribution (scope : Scope) (id : string)
    (props : option StackProps) : (E + unit) * Stack Scope :=
  (const bucket := hosting_body;
   const distribution := new_Distribution "website-distribution"
     {| defaultBehavior :=
          {| origin := {| origin_bucket := bucket |};
             viewerProtocolPolicy := Some REDIRECT_TO_HTTPS |};
        domainNames := [];
        defaultRootObject := Some "index.html";
        certificate := None |};
   ret tt)%build (super scope id props).

End Stages.

End Tutorial.

(** A distribution that answers to a domain name has a certificate for it
    and an origin bucket without public-access settings. *)
Definition aliases_secured (d : Distribution) : Prop :=
  forall D, In D (domainNames (dist_props d)) ->
    covered_by_certificate d D
    /\ has_public_access_policy
         (origin_bucket (origin (defaultBehavior (dist_props d)))) = false.

(** [l1] is [l2] with some elements left out. *)
Fixpoint subsequence (l1 l2 : list string) : bool :=
  match l1, l2 with
  | [], _ => true
  | _ :: _, [] => false
  | x :: l1', y :: l2' =>
      if String.eqb x y then subsequence l1' l2' else subsequence l1 l2'
  end.

(** ** When any library call may throw

    [CdkStack] lets only the zone lookup throw.  Every call the constructor
    makes is a call into the library, and each of them can reject what it is
    given; [CdkStack_checked] is the same constructor with every call
    answered by a [Library]. *)

Record Library (Scope E : Type) := {
  (** [super(scope, id, props)] throws *)
  super_throws : Scope -> string -> option StackProps -> option E;
  (** the constructor of this construct, called on this stack, throws *)
  construct_throws : Stack Scope -> Resource -> option E;
  (** [HostedZone.fromLookup] *)
  zone_lookup : ZoneLookup Scope E
}.

Section Checked.
Context {Scope E : Type}.
Variable lib : Library Scope E.

Definition guard (r : Resource) : Build Scope E unit :=
  fun this =>
    match construct_throws lib this r with
    | Some e => (inl e, this)
    | None => (inr tt, this)
    end.

Definition new_Bucket_checked (id : string) (props : BucketProps)
    : Build Scope E Bucket :=
  (const ok := guard (RBucket {| bucket_id := id; bucket_props := props |});
   new_Bucket id props)%build.

Definition new_DnsValidatedCertificate_checked (id : string)
    (props : DnsValidatedCertificateProps)
    : Build Scope E DnsValidatedCertificate :=
  (const ok := guard (RCertificate {| cert_id := id; cert_props := props |});
   new_DnsValidatedCertificate id props)%build.

Definition new_Distribution_checked (id : string) (props : DistributionProps)
    : Build Scope E Distribution :=
  (const ok := guard (RDistribution {| dist_id := id; dist_props := props |});
   new_Distribution id props)%build.

Definition new_ARecord_checked (id : string) (props : ARecordProps)
    : Build Scope E ARecord :=
  (const ok := guard (RARecord {| rec_id := id; rec_props := props |});
   new_ARecord id props)%build.

Variable BASE_DOMAIN : string.

Definition CdkStack_checked_body : Build Scope E unit :=
  (const bucket := new_Bucket_checked "website-bucket"
     {| encryption := Some S3_MANAGED;
        publicReadAccess := None;
        websiteIndexDocument := None;
        blockPublicAccess := None |};
   const hostedZone := HostedZone_fromLookup (zone_lookup lib) "hosted-zone"
     {| hz_domainName := BASE_DOMAIN |};
   const certificate := new_DnsValidatedCertificate_checked "certificate"
     {| cert_domainName := BASE_DOMAIN;
        cert_hostedZone := hostedZone;
        cert_region := Some "us-east-1" |};
   const distribution := new_Distribution_checked "website-distribution"
     {| defaultBehavior :=
          {| origin := {| origin_bucket := bucket |};
             viewerProtocolPolicy := Some REDIRECT_TO_HTTPS |};
        domainNames := [BASE_DOMAIN];
        defaultRootObject := Some "index.html";
        certificate := Some certificate |};
   const DNSRecord := new_ARecord_checked "DNSRecord"
     {| zone := hostedZone;
        recordName := Some BASE_DOMAIN;
        target := fromAlias {| target_distribution := distribution |} |};
   ret tt)%build.

(** A run gives how it ended and, unless [super] threw, the stack. *)
Definition CdkStack_checked (scope : Scope) (id : string)
    (props : option StackProps) : (E + unit) * option (Stack Scope) :=
  match super_throws lib scope id props with
  | Some e => (inl e, None)
  | None =>
      let r := CdkStack_checked_body (super scope id props) in
      (fst r, Some (snd r))
  end.



End Checked.

(** The constructs whose constructor returned in a run, oldest first. *)
Definition built {Scope E} (r : (E + unit) * option (Stack Scope))
    : list Resource :=
  match snd r with
  | Some this => children this
  | None => []
  end.

(** The library in which only the zone lookup can throw. *)
Definition only_lookup {Scope E} (lookup : ZoneLookup Scope E)
    : Library Scope E :=
  {| super_throws := fun _ _ _ => None;
     construct_throws := fun _ _ => None;
     zone_lookup := lookup |}.

(** A library that rejects every certificate. *)
Definition no_certificates {Scope} (lookup : ZoneLookup Scope LookupError)
    : Library Scope (LookupError + string) :=
  {| super_throws := fun _ _ _ => None;
     construct_throws := fun _ r =>
       match r with
       | RCertificate _ => Some (inr "certificate rejected")
       | _ => None
       end;
     zone_lookup := fun this i q =>
       match lookup this i q with
       | inl e => inl (inl e)
       | inr z => inr z
       end |}.

(** What the claims of the specification say of a run [r] of the
    constructor. *)

(** Nothing was built: the stack has no child. *)
Definition no_node_built {Scope E} (r : (E + unit) * Stack Scope) : Prop :=
  children (snd r) = [].


(** * Properties of the constructor *)

(** The run for [example.org] with its zone registered, and the run with no
    zone registered. *)
Example run_example_org_ids :
  map node_id
      (children (snd (CdkStack (registry_lookup [("example.org", "Z1")])
                               "example.org" tt "CdkStack" None)))
  = ["website-bucket"; "hosted-zone"; "certificate"; "website-distribution";
     "DNSRecord"].
Proof. reflexivity. Qed.

Example run_example_org_zone :
  map hz_resolved
      (hostedZones
         (children (snd (CdkStack (registry_lookup [("example.org", "Z1")])
                                  "example.org" tt "CdkStack" None))))
  = [{| hostedZoneId := "Z1"; zoneName := "example.org" |}].
Proof. reflexivity. Qed.

Example run_unregistered :
  CdkStack (registry_lookup [("example.org", "Z1")]) "example.net"
           tt "CdkStack" None
  = (inl ZoneNotFound, stack_at_lookup tt "CdkStack" None).
Proof. reflexivity. Qed.

(** Unfolds a run of the constructor down to the zone lookup. *)
Ltac run_constructor :=
  cbv beta iota zeta delta
    [CdkStack CdkStack_body bind ret new_Bucket HostedZone_fromLookup
     new_DnsValidatedCertificate new_Distribution new_ARecord
     lookup_outcome stack_at_lookup] in *.

(** Splits a run on the outcome of the zone lookup. *)
Ltac by_lookup L :=
  run_constructor;
  match goal with
  | |- context [match ?l ?s ?i ?q with inl _ => _ | inr _ => _ end] =>
      destruct (l s i q) eqn:L
  end; cbn.

Section Runs.
Context {Scope E : Type}.
Variable lookup : ZoneLookup Scope E.
Variable D : string.
Variables (scope : Scope) (id : string) (props : option StackProps).

(** When the lookup throws, the constructor throws the same value and the
    stack is as the lookup saw it. *)
Lemma CdkStack_lookup_throws e :
  lookup_outcome lookup D scope id props = inl e ->
  CdkStack lookup D scope id props = (inl e, stack_at_lookup scope id props).
Proof.
  intros H. run_constructor. rewrite H. reflexivity.
Qed.

(** When the lookup resolves, the constructor returns. *)
Lemma CdkStack_lookup_resolves z :
  lookup_outcome lookup D scope id props = inr z ->
  fst (CdkStack lookup D scope id props) = inr tt.
Proof.
  intros H. run_constructor. rewrite H. reflexivity.
Qed.

(** [super] keeps its three arguments, whatever happens next. *)
Lemma CdkStack_keeps_super :
  let this := snd (CdkStack lookup D scope id props) in
  stack_scope this = scope /\ stack_id this = id /\ stack_props this = props.
Proof.
  by_lookup L; auto.
Qed.

End Runs.

(** ** Paths and ranks *)

Lemma reach_rank_lt es order :
  (forall u v, In (u, v) es -> rank order u < rank order v) ->
  forall u v, reach es u v -> rank order u < rank order v.
Proof.
  intros Hes u v Hr.
  induction Hr as [u v Huv | u v w Huv _ IH].
  - now apply Hes.
  - apply Nat.lt_trans with (rank order v); [now apply Hes | exact IH].
Qed.

Lemma ranked_acyclic es order :
  (forall u v, In (u, v) es -> rank order u < rank order v) ->
  acyclic es.
Proof.
  intros Hes n Hn.
  apply (reach_rank_lt order Hes) in Hn.
  exact (Nat.lt_irrefl _ Hn).
Qed.

Lemma acyclic_nil : acyclic [].
Proof.
  intros n Hn. destruct Hn as [u v H | u v w H _]; destruct H.
Qed.

(** ** The certificate *)

(** C1.  Whatever the scope, the stack id, the stack properties (and with
    them the deployment region of the stack) and the outcome of the zone
    lookup, every certificate the constructor declares has its region
    property set to the constant ['us-east-1']; it declares exactly one when
    the zone resolves, and none when the lookup throws. *)
Theorem certificate_region_is_constant
    {Scope E} (lookup : ZoneLookup Scope E) (D : string)
    (scope : Scope) (id : string) (props : option StackProps) :
  let g := children (snd (CdkStack lookup D scope id props)) in
  Forall (fun c => cert_region (cert_props c) = Some "us-east-1")
         (certificates g)
  /\ map (fun c => cert_region (cert_props c)) (certificates g)
     = match lookup_outcome lookup D scope id props with
       | inr _ => [Some "us-east-1"]
       | inl _ => []
       end.
Proof.
  by_lookup L; split; auto.
Qed.

(** ** The distribution *)

(** C2.  For every domain name [D'] that a distribution built by the
    constructor lists among its domain names, the distribution has a
    certificate attached, that certificate's domain name is [D'], and it is
    the certificate node of the same stack.  The constructor always passes
    the certificate, so the alternative of the claim, a failure for a
    missing certificate, never arises. *)
Theorem distribution_alias_has_certificate
    {Scope E} (lookup : ZoneLookup Scope E) (D : string)
    (scope : Scope) (id : string) (props : option StackProps)
    (d : Distribution) (D' : string) :
  let g := children (snd (CdkStack lookup D scope id props)) in
  In d (distributions g) ->
  In D' (domainNames (dist_props d)) ->
  covered_by_certificate d D'
  /\ exists c, certificate (dist_props d) = Some c
               /\ cert_domainName (cert_props c) = D'
               /\ In (RCertificate c) g.
Proof.
  by_lookup L; intros Hd HD; try contradiction.
  destruct Hd as [<- | []]. cbn in HD. destruct HD as [<- | []].
  split.
  - eexists. split; reflexivity.
  - eexists. split; [reflexivity | split; [reflexivity |]].
    cbn. auto.
Qed.

(** Witness for C2: the zone of [example.org] is registered. *)
Lemma distribution_alias_has_certificate_witness :
  let g := children (snd (CdkStack (registry_lookup [("example.org", "Z1")])
                                   "example.org" tt "CdkStack" None)) in
  exists d,
    In d (distributions g)
    /\ In "example.org" (domainNames (dist_props d))
    /\ covered_by_certificate d "example.org"
    /\ exists c, certificate (dist_props d) = Some c
                 /\ cert_domainName (cert_props c) = "example.org"
                 /\ In (RCertificate c) g.
Proof.
  cbv zeta. eexists.
  split; [cbn; left; reflexivity |].
  split; [cbn; left; reflexivity |].
  apply (distribution_alias_has_certificate
           (registry_lookup [("example.org", "Z1")]) "example.org"
           tt "CdkStack" None).
  - cbn. left. reflexivity.
  - cbn. left. reflexivity.
Defined.

(** ** The zone lookup *)

(** C3, as the specification states it, fails: with no zone registered for
    [example.org] the constructor fails with [ZoneNotFound], but the bucket
    was built before the lookup and is a child of the stack. *)
Lemma zone_not_found_bucket_already_built :
  let r := CdkStack (registry_lookup []) "example.org" tt "CdkStack" None in
  fst r = inl ZoneNotFound
  /\ ~ no_node_built r
  /\ map node_id (children (snd r)) = ["website-bucket"].
Proof.
  cbv zeta. split; [reflexivity | split; [| reflexivity]].
  unfold no_node_built. cbn. discriminate.
Qed.

(** C3, amended.  When the zone lookup throws [e], the constructor throws
    [e]; at that point the stack holds the bucket, which was built before the
    lookup, and no hosted zone, certificate, distribution or alias record. *)
Theorem lookup_failure_leaves_only_bucket
    {Scope E} (lookup : ZoneLookup Scope E) (D : string)
    (scope : Scope) (id : string) (props : option StackProps) (e : E) :
  lookup_outcome lookup D scope id props = inl e ->
  let r := CdkStack lookup D scope id props in
  fst r = inl e
  /\ map node_id (children (snd r)) = ["website-bucket"]
  /\ length (buckets (children (snd r))) = 1
  /\ hostedZones (children (snd r)) = []
  /\ certificates (children (snd r)) = []
  /\ distributions (children (snd r)) = []
  /\ records (children (snd r)) = [].
Proof.
  intros H. cbv zeta.
  rewrite (CdkStack_lookup_throws lookup D scope id props H).
  cbn. repeat split; reflexivity.
Qed.

(** Witness for C3 amended: no zone is registered. *)
Lemma lookup_failure_leaves_only_bucket_witness :
  let r := CdkStack (registry_lookup []) "example.org" tt "CdkStack" None in
  lookup_outcome (registry_lookup []) "example.org" tt "CdkStack" None
    = inl ZoneNotFound
  /\ fst r = inl ZoneNotFound
  /\ map node_id (children (snd r)) = ["website-bucket"]
  /\ length (buckets (children (snd r))) = 1
  /\ hostedZones (children (snd r)) = []
  /\ certificates (children (snd r)) = []
  /\ distributions (children (snd r)) = []
  /\ records (children (snd r)) = [].
Proof.
  cbv zeta. split; [reflexivity |].
  apply (lookup_failure_leaves_only_bucket
           (registry_lookup []) "example.org" tt "CdkStack" None).
  reflexivity.
Defined.

(** ** The alias record *)

(** C4.  Every alias record built by the constructor has a record name, is
    an alias to a distribution that is a node of the same stack, and its
    record name occurs exactly once among that distribution's domain names.
    A record name outside the aliases therefore never arises, and with it
    neither does the failure the claim attaches to it. *)
Theorem alias_record_name_is_an_alias
    {Scope E} (lookup : ZoneLookup Scope E) (D : string)
    (scope : Scope) (id : string) (props : option StackProps)
    (a : ARecord) :
  let g := children (snd (CdkStack lookup D scope id props)) in
  In a (records g) ->
  exists n d,
    recordName (rec_props a) = Some n
    /\ alias_target a = Some d
    /\ In (RDistribution d) g
    /\ count_occ string_dec (domainNames (dist_props d)) n = 1.
Proof.
  by_lookup L; intros Ha; try contradiction.
  destruct Ha as [<- | []].
  exists D. eexists. cbn.
  split; [reflexivity | split; [reflexivity | split]].
  - auto 6.
  - cbn. destruct (string_dec D D) as [_ | N]; [reflexivity | now elim N].
Qed.

(** Witness for C4: the zone of [example.org] is registered. *)
Lemma alias_record_name_is_an_alias_witness :
  let g := children (snd (CdkStack (registry_lookup [("example.org", "Z1")])
                                   "example.org" tt "CdkStack" None)) in
  exists a,
    In a (records g)
    /\ exists n d,
         recordName (rec_props a) = Some n
         /\ alias_target a = Some d
         /\ In (RDistribution d) g
         /\ count_occ string_dec (domainNames (dist_props d)) n = 1.
Proof.
  cbv zeta. eexists.
  split; [cbn; left; reflexivity |].
  apply (alias_record_name_is_an_alias
           (registry_lookup [("example.org", "Z1")]) "example.org"
           tt "CdkStack" None).
  cbn. left. reflexivity.
Defined.

(** ** Dependency edges *)

(** C5.  With edges drawn from a construct to the constructs that refer to
    it: the bucket and the hosted zone have no incoming edge; the only edge
    into the certificate comes from the hosted zone; the edges into the
    distribution come from the bucket and the certificate; the edges into the
    alias record come from the hosted zone and the distribution; these five
    are all the edges of a completed stack (a stack whose lookup threw has
    none), and no node reaches itself along them. *)
Theorem dependency_edges_form_dag
    {Scope E} (lookup : ZoneLookup Scope E) (D : string)
    (scope : Scope) (id : string) (props : option StackProps) :
  let g := children (snd (CdkStack lookup D scope id props)) in
  acyclic (edges g)
  /\ incoming g "website-bucket" = []
  /\ incoming g "hosted-zone" = []
  /\ match lookup_outcome lookup D scope id props with
     | inr _ =>
         edges g = [("hosted-zone", "certificate");
                    ("website-bucket", "website-distribution");
                    ("certificate", "website-distribution");
                    ("hosted-zone", "DNSRecord");
                    ("website-distribution", "DNSRecord")]
         /\ incoming g "certificate" = ["hosted-zone"]
         /\ incoming g "website-distribution"
            = ["website-bucket"; "certificate"]
         /\ incoming g "DNSRecord" = ["hosted-zone"; "website-distribution"]
     | inl _ => edges g = []
     end.
Proof.
  by_lookup L.
  - split; [exact acyclic_nil | auto].
  - split; [| repeat split; reflexivity].
    apply ranked_acyclic with (order := build_order).
    intros u v H. cbn in H.
    repeat (destruct H as [H | H];
            [injection H as <- <-; cbn; lia |]).
    destruct H.
Qed.

(** ** The scenario of the specification *)

(** C6.  Run for the domain [example.org] with a zone lookup that resolves,
    the constructor returns; the stack has five children, built in the fixed
    order; the certificate's domain name is [example.org] and its region
    ['us-east-1']; the distribution's domain names are [[example.org]]; the
    alias record's name is [example.org]. *)
Theorem example_org_graph
    {Scope E} (lookup : ZoneLookup Scope E)
    (scope : Scope) (id : string) (props : option StackProps)
    (z : ZoneIdentity) :
  lookup_outcome lookup "example.org" scope id props = inr z ->
  let r := CdkStack lookup "example.org" scope id props in
  let g := children (snd r) in
  fst r = inr tt
  /\ length g = 5
  /\ map node_id g = build_order
  /\ map (fun c => (cert_domainName (cert_props c),
                    cert_region (cert_props c))) (certificates g)
     = [("example.org", Some "us-east-1")]
  /\ map (fun d => domainNames (dist_props d)) (distributions g)
     = [["example.org"]]
  /\ map (fun a => recordName (rec_props a)) (records g)
     = [Some "example.org"].
Proof.
  intros H. run_constructor. rewrite H. cbn.
  repeat split; reflexivity.
Qed.

(** Witness for C6: the zone of [example.org] is registered. *)
Lemma example_org_graph_witness :
  let lookup := registry_lookup [("example.org", "Z1")] in
  let r := CdkStack lookup "example.org" tt "CdkStack" None in
  let g := children (snd r) in
  lookup_outcome lookup "example.org" tt "CdkStack" None
    = inr {| hostedZoneId := "Z1"; zoneName := "example.org" |}
  /\ fst r = inr tt
  /\ length g = 5
  /\ map node_id g = build_order
  /\ map (fun c => (cert_domainName (cert_props c),
                    cert_region (cert_props c))) (certificates g)
     = [("example.org", Some "us-east-1")]
  /\ map (fun d => domainNames (dist_props d)) (distributions g)
     = [["example.org"]]
  /\ map (fun a => recordName (rec_props a)) (records g)
     = [Some "example.org"].
Proof.
  cbv zeta. split; [reflexivity |].
  apply (example_org_graph (registry_lookup [("example.org", "Z1")])
           tt "CdkStack" None
           (z := {| hostedZoneId := "Z1"; zoneName := "example.org" |})).
  reflexivity.
Defined.

(** ** The bucket *)

(** C7.  Every run of the constructor builds exactly one bucket; it has
    server-side encryption on and carries no public-access setting.  The
    origin of every distribution the constructor builds is that bucket. *)
Theorem origin_store_encrypted_and_private
    {Scope E} (lookup : ZoneLookup Scope E) (D : string)
    (scope : Scope) (id : string) (props : option StackProps) :
  let g := children (snd (CdkStack lookup D scope id props)) in
  length (buckets g) = 1
  /\ Forall (fun b => encryption_enabled b = true
                      /\ encryption (bucket_props b) = Some S3_MANAGED
                      /\ has_public_access_policy b = false
                      /\ publicReadAccess (bucket_props b) = None
                      /\ websiteIndexDocument (bucket_props b) = None
                      /\ blockPublicAccess (bucket_props b) = None)
            (buckets g)
  /\ Forall (fun d =>
               In (origin_bucket (origin (defaultBehavior (dist_props d))))
                  (buckets g))
            (distributions g).
Proof.
  by_lookup L; repeat split; auto 10.
Qed.

(** ** Two runs *)

(** C8, as stated, fails: the domain name is not all that a run is built
    from.  Two runs for [example.org] under the same scope, id and properties
    both return, but where the zone registered for the domain differs the
    stacks differ, in the hosted zone and in every descriptor that holds it. *)
Lemma same_domain_different_zone :
  let r1 := CdkStack (registry_lookup [("example.org", "Z1")])
                     "example.org" tt "CdkStack" None in
  let r2 := CdkStack (registry_lookup [("example.org", "Z2")])
                     "example.org" tt "CdkStack" None in
  fst r1 = inr tt /\ fst r2 = inr tt
  /\ children (snd r1) <> children (snd r2)
  /\ map hz_resolved (hostedZones (children (snd r1)))
     <> map hz_resolved (hostedZones (children (snd r2))).
Proof.
  cbv zeta. split; [reflexivity | split; [reflexivity |]].
  split; cbn; intros H; discriminate H.
Qed.

(** ** One domain name throughout *)

(** C9.  Every domain name carried by a construct of the stack is the
    domain constant the constructor was given; in a completed stack the
    query of the zone lookup, the certificate's domain name, the single
    domain name of the distribution and the alias record's name are all
    present and equal to it.  This holds for every value of the constant, and
    so for the one the repository ships, [BASE_DOMAIN]. *)
Theorem base_domain_threads_the_graph
    {Scope E} (lookup : ZoneLookup Scope E) (D : string)
    (scope : Scope) (id : string) (props : option StackProps) :
  let g := children (snd (CdkStack lookup D scope id props)) in
  Forall (fun r => Forall (eq D) (domain_fields r)) g
  /\ match lookup_outcome lookup D scope id props with
     | inr _ =>
         map (fun z => hz_domainName (hz_query z)) (hostedZones g) = [D]
         /\ map (fun c => cert_domainName (cert_props c)) (certificates g)
            = [D]
         /\ map (fun d => domainNames (dist_props d)) (distributions g)
            = [[D]]
         /\ map (fun a => recordName (rec_props a)) (records g) = [Some D]
     | inl _ => flat_map domain_fields g = []
     end.
Proof.
  by_lookup L; split; try reflexivity;
    repeat (constructor; cbn); auto.
Qed.

(** ** Errors *)


(** * Further properties of the constructor *)

(** ** Order and references *)

Lemma depends_on_referenced (r : Resource) :
  depends_on r = map node_id (referenced r).
Proof.
  destruct r as [b | z | c | d | a]; cbn; try reflexivity.
  - destruct (certificate (dist_props d)); reflexivity.
  - destruct (target (rec_props a)); reflexivity.
Qed.

Lemma built_in_order_split (g earlier before after : list Resource)
    (r x : Resource) :
  built_in_order earlier g ->
  g = (before ++ r :: after)%list ->
  In x (referenced r) ->
  In x (earlier ++ before)%list.
Proof.
  revert earlier before.
  induction g as [| r0 g IH]; intros earlier before Hg Heq Hx.
  - destruct before; discriminate.
  - destruct Hg as [Hr0 Hg].
    destruct before as [| b before]; cbn in Heq.
    + injection Heq as -> _. rewrite app_nil_r. now apply Hr0.
    + injection Heq as -> Heq.
      specialize (IH (earlier ++ [b])%list before Hg Heq Hx).
      now rewrite <- app_assoc in IH.
Qed.

Lemma CdkStack_built_in_order
    {Scope E} (lookup : ZoneLookup Scope E) (D : string)
    (scope : Scope) (id : string) (props : option StackProps) :
  built_in_order [] (children (snd (CdkStack lookup D scope id props))).
Proof.
  by_lookup L.
  - split; [intros x [] | exact I].
  - repeat split; cbn; intros x Hx;
      repeat (destruct Hx as [<- | Hx]; [auto 6 |]); destruct Hx.
Qed.

(** X1.  The ids the constructor gives its constructs are pairwise distinct
    in every run. *)
Theorem construct_ids_distinct
    {Scope E} (lookup : ZoneLookup Scope E) (D : string)
    (scope : Scope) (id : string) (props : option StackProps) :
  NoDup (map node_id (children (snd (CdkStack lookup D scope id props)))).
Proof.
  by_lookup L;
    repeat (constructor; [cbn; intuition discriminate |]); constructor.
Qed.

(** X2.  Every construct that a child of the stack holds as a property value
    is itself a child of the same stack, built before it: no child refers to
    something outside the stack, to itself or to a later child. *)
Theorem references_point_to_earlier_children
    {Scope E} (lookup : ZoneLookup Scope E) (D : string)
    (scope : Scope) (id : string) (props : option StackProps)
    (before after : list Resource) (r x : Resource) :
  children (snd (CdkStack lookup D scope id props)) = (before ++ r :: after)%list ->
  In x (referenced r) ->
  In x before.
Proof.
  intros Hg Hx.
  apply (built_in_order_split [] before after r x
           (CdkStack_built_in_order lookup D scope id props) Hg Hx).
Qed.

(** Witness for X2: the distribution of the [example.org] stack refers to
    the certificate, its third child. *)
Lemma references_point_to_earlier_children_witness :
  exists before r after x,
    children (snd (CdkStack (registry_lookup [("example.org", "Z1")])
                            "example.org" tt "CdkStack" None))
      = (before ++ r :: after)%list
    /\ length before = 3
    /\ In x (referenced r)
    /\ In x before.
Proof.
  do 4 eexists.
  split; [| split; [| split]]; cycle 3.
  - eapply (references_point_to_earlier_children
              (registry_lookup [("example.org", "Z1")]) "example.org"
              tt "CdkStack" None [_; _; _] [_] _ _).
    + cbn. reflexivity.
    + cbn. right. left. reflexivity.
  - cbn. reflexivity.
  - reflexivity.
  - cbn. right. left. reflexivity.
Defined.

(** ** The resolved zone *)

(** X3.  When the lookup resolves a zone, the stack has one hosted-zone node,
    with id ['hosted-zone'], carrying exactly the identity the lookup
    returned; the certificate validates in that same zone and the alias
    record is placed in it.  When the lookup throws, the stack has no
    hosted-zone node. *)
Theorem one_zone_shared
    {Scope E} (lookup : ZoneLookup Scope E) (D : string)
    (scope : Scope) (id : string) (props : option StackProps) :
  let g := children (snd (CdkStack lookup D scope id props)) in
  match lookup_outcome lookup D scope id props with
  | inr z =>
      exists h,
        hostedZones g = [h]
        /\ hz_id h = "hosted-zone"
        /\ hz_resolved h = z
        /\ map (fun c => cert_hostedZone (cert_props c)) (certificates g)
           = [h]
        /\ map (fun a => zone (rec_props a)) (records g) = [h]
  | inl _ => hostedZones g = []
  end.
Proof.
  by_lookup L; [reflexivity |].
  eexists. repeat split; reflexivity.
Qed.

(** ** The distribution's behaviour *)

(** X4.  A run builds at most one distribution; it redirects plain HTTP to
    HTTPS, serves ['index.html'] at the root, answers to exactly one domain
    name, and is the target of every alias record of the stack. *)
Theorem distribution_redirects_to_https
    {Scope E} (lookup : ZoneLookup Scope E) (D : string)
    (scope : Scope) (id : string) (props : option StackProps) :
  let g := children (snd (CdkStack lookup D scope id props)) in
  length (distributions g) <= 1
  /\ Forall (fun d =>
               viewerProtocolPolicy (defaultBehavior (dist_props d))
                 = Some REDIRECT_TO_HTTPS
               /\ defaultRootObject (dist_props d) = Some "index.html"
               /\ length (domainNames (dist_props d)) = 1)
            (distributions g)
  /\ map alias_target (records g) = map Some (distributions g).
Proof.
  by_lookup L; repeat split; auto.
Qed.

(** ** Reading a run back *)

(** X5.  A completed stack determines what it was built from: if a run
    returns and another run leaves the same children, then both were given
    the same domain name and their lookups answered the same. *)
Theorem children_determine_inputs
    {Scope E} (lookup1 lookup2 : ZoneLookup Scope E) (D1 D2 : string)
    (scope1 scope2 : Scope) (id1 id2 : string)
    (props1 props2 : option StackProps) :
  fst (CdkStack lookup1 D1 scope1 id1 props1) = inr tt ->
  children (snd (CdkStack lookup1 D1 scope1 id1 props1))
    = children (snd (CdkStack lookup2 D2 scope2 id2 props2)) ->
  D1 = D2
  /\ lookup_outcome lookup1 D1 scope1 id1 props1
     = lookup_outcome lookup2 D2 scope2 id2 props2.
Proof.
  run_constructor.
  destruct (lookup1 _ _ _) as [e1 | z1]; cbn; [discriminate |].
  destruct (lookup2 _ _ _) as [e2 | z2]; cbn; intros _ H; [discriminate |].
  injection H as H. split; congruence.
Qed.

(** Witness for X5: two stacks for [example.org] with different ids. *)
Lemma children_determine_inputs_witness :
  let lookup := registry_lookup [("example.org", "Z1")] in
  fst (CdkStack lookup "example.org" tt "StackA" None) = inr tt
  /\ children (snd (CdkStack lookup "example.org" tt "StackA" None))
     = children (snd (CdkStack lookup "example.org" tt "StackB" None))
  /\ "example.org" = "example.org"
  /\ lookup_outcome lookup "example.org" tt "StackA" None
     = lookup_outcome lookup "example.org" tt "StackB" None.
Proof.
  cbv zeta. split; [reflexivity | split; [reflexivity |]].
  apply (children_determine_inputs
           (registry_lookup [("example.org", "Z1")])
           (registry_lookup [("example.org", "Z1")])
           "example.org" "example.org" tt tt "StackA" "StackB" None None);
    reflexivity.
Defined.

(** ** From the earlier stages to the final stack *)

Section Upgrade.
Context {Scope E : Type}.
Variable lookup : ZoneLookup Scope E.
Variable D : string.
Variables (scope scope' : Scope) (id id' : string).
Variables (props props' : option StackProps).

Let hosting : list Resource :=
  children (snd (Tutorial.CdkStack_hosting (E := E) scope id props)).
Let fronted : list Resource :=
  children (snd (Tutorial.CdkStack_distribution (E := E) scope id props)).
Let final : list Resource :=
  children (snd (CdkStack lookup D scope' id' props')).

(** X7.  Each stage keeps the construct ids of the stage before it, in the
    same order: the ids of the bucket stage are among those of the
    bucket-and-distribution stage, and the ids of both are among those of a
    final stack whose constructor returned.  The final distribution keeps the
    earlier one's id, viewer policy, root object and origin id; what it adds
    is the domain name and the certificate. *)
Theorem stages_keep_construct_ids :
  fst (CdkStack lookup D scope' id' props') = inr tt ->
  subsequence (map node_id hosting) (map node_id fronted) = true
  /\ subsequence (map node_id hosting) (map node_id final) = true
  /\ subsequence (map node_id fronted) (map node_id final) = true
  /\ Forall (fun d =>
       Forall (fun d' =>
         dist_id d' = dist_id d
         /\ viewerProtocolPolicy (defaultBehavior (dist_props d'))
            = viewerProtocolPolicy (defaultBehavior (dist_props d))
         /\ defaultRootObject (dist_props d')
            = defaultRootObject (dist_props d)
         /\ bucket_id (origin_bucket (origin (defaultBehavior (dist_props d'))))
            = bucket_id (origin_bucket (origin (defaultBehavior (dist_props d))))
         /\ domainNames (dist_props d) = []
         /\ certificate (dist_props d) = None
         /\ domainNames (dist_props d') = [D]
         /\ certificate (dist_props d') <> None)
         (distributions final))
       (distributions fronted).
Proof.
  subst hosting fronted final.
  unfold Tutorial.CdkStack_hosting, Tutorial.CdkStack_distribution,
    Tutorial.hosting_body.
  by_lookup L; intros H; [discriminate H |].
  repeat split; try reflexivity.
  repeat constructor; cbn; discriminate.
Qed.

(** X8.  In every stage a bucket either declares encryption and no
    public-access setting, or public-access settings and no encryption; and
    every distribution that answers to a domain name has a certificate for it
    and an origin bucket of the first kind.  The two earlier stages have the
    public bucket and no domain name; the final stack has the encrypted
    bucket. *)
Theorem public_bucket_only_without_alias :
  Forall (fun g =>
            Forall (fun b => has_public_access_policy b
                             = negb (encryption_enabled b)) (buckets g)
            /\ Forall aliases_secured (distributions g))
         [hosting; fronted; final]
  /\ Forall (fun g =>
               Forall (fun b => has_public_access_policy b = true
                                /\ publicReadAccess (bucket_props b)
                                   = Some true) (buckets g)
               /\ Forall (fun d => domainNames (dist_props d) = [])
                         (distributions g))
            [hosting; fronted]
  /\ Forall (fun b => has_public_access_policy b = false) (buckets final).
Proof.
  subst hosting fronted final.
  unfold Tutorial.CdkStack_hosting, Tutorial.CdkStack_distribution,
    Tutorial.hosting_body, aliases_secured.
  by_lookup L;
    repeat (apply Forall_cons || apply Forall_nil || apply conj);
    cbn; try reflexivity; try (intros D' []; fail).
  intros D' [<- | []].
  split; [eexists; split |]; reflexivity.
Qed.

End Upgrade.

(** Witness for X7: the final stack for [example.org], its zone registered. *)
Lemma stages_keep_construct_ids_witness :
  let lookup := registry_lookup (Scope := unit) [("example.org", "Z1")] in
  let final := children (snd (CdkStack lookup "example.org"
                                       tt "CdkStack" None)) in
  fst (CdkStack lookup "example.org" tt "CdkStack" None) = inr tt
  /\ subsequence
       (map node_id
          (children (snd (Tutorial.CdkStack_distribution (E := LookupError)
                            tt "CdkStack" None))))
       (map node_id final) = true.
Proof.
  cbv zeta. split; [reflexivity |].
  apply (stages_keep_construct_ids
           (registry_lookup (Scope := unit) [("example.org", "Z1")])
           "example.org" tt tt "CdkStack" "CdkStack" None None).
  reflexivity.
Defined.


(** * The constructor against a library that may reject any call *)

(** Unfolds a run of the checked constructor down to the library's answers. *)
Ltac run_checked :=
  cbv beta iota zeta delta
    [CdkStack_checked CdkStack_checked_body bind ret guard built
     new_Bucket_checked new_DnsValidatedCertificate_checked
     new_Distribution_checked new_ARecord_checked
     new_Bucket HostedZone_fromLookup new_DnsValidatedCertificate
     new_Distribution new_ARecord lookup_outcome stack_at_lookup] in *.


(** A rejected certificate stops the run after the hosted zone, with the
    library's error. *)
Example run_certificate_rejected :
  let r := CdkStack_checked
             (no_certificates (registry_lookup [("example.org", "Z1")]))
             "example.org" tt "CdkStack" None in
  fst r = inl (inr "certificate rejected")
  /\ map node_id (built r) = ["website-bucket"; "hosted-zone"].
Proof. split; reflexivity. Qed.

(** With a library in which only the lookup can throw, the checked
    constructor is [CdkStack]. *)
Lemma CdkStack_checked_only_lookup
    {Scope E} (lookup : ZoneLookup Scope E) (D : string)
    (scope : Scope) (id : string) (props : option StackProps) :
  CdkStack_checked (only_lookup lookup) D scope id props
  = (fst (CdkStack lookup D scope id props),
     Some (snd (CdkStack lookup D scope id props))).
Proof.
  run_checked. run_constructor. cbn.
  destruct (lookup _ _ _); reflexivity.
Qed.

(** ** Errors *)



(** ** Two runs *)

(** C8, amended.  Take two runs for the same domain name, under any scopes,
    stack ids, stack properties and libraries.  If both return and the zone
    lookup answered the same in both, then both built the five constructs, in
    the fixed order, and what they built is equal field for field, ids
    included: apart from the zone that the lookup resolves, nothing of a run
    reaches a descriptor. *)
Theorem returned_runs_agree
    {Scope E} (lib1 lib2 : Library Scope E) (D : string)
    (scope1 scope2 : Scope) (id1 id2 : string)
    (props1 props2 : option StackProps) :
  let r1 := CdkStack_checked lib1 D scope1 id1 props1 in
  let r2 := CdkStack_checked lib2 D scope2 id2 props2 in
  fst r1 = inr tt ->
  fst r2 = inr tt ->
  lookup_outcome (zone_lookup lib1) D scope1 id1 props1
    = lookup_outcome (zone_lookup lib2) D scope2 id2 props2 ->
  built r1 = built r2
  /\ map node_id (built r1) = build_order
  /\ length (built r2) = 5.
Proof.
  run_checked.
  destruct (super_throws lib1 _ _ _); cbn [fst snd]; [discriminate |].
  destruct (super_throws lib2 _ _ _); cbn [fst snd]; [intros _; discriminate |].
  destruct (construct_throws lib1 _ _); cbn [fst snd]; [discriminate |].
  destruct (construct_throws lib2 _ _); cbn [fst snd];
    [intros _; discriminate |].
  destruct (zone_lookup lib1 _ _ _) as [e1 | z1]; cbn [fst snd];
    [discriminate |].
  destruct (zone_lookup lib2 _ _ _) as [e2 | z2]; cbn [fst snd];
    [intros _; discriminate |].
  intros H1 H2 Hz. injection Hz as <-.
  revert H1 H2.
  repeat (destruct (construct_throws lib1 _ _); cbn [fst snd];
          [discriminate |]).
  intros _.
  repeat (destruct (construct_throws lib2 _ _); cbn [fst snd];
          [discriminate |]).
  intros _. cbn. repeat split; reflexivity.
Qed.

(** Witness for C8 amended: the same registry, two stacks that differ in id
    and in deployment region. *)
Lemma returned_runs_agree_witness :
  let lib := only_lookup (Scope := unit)
               (registry_lookup [("example.org", "Z1")]) in
  let west :=
    Some {| env := Some {| account := Some "111111111111";
                           region := Some "eu-west-1" |};
            stackName := None; description := None;
            terminationProtection := None |} in
  let r1 := CdkStack_checked lib "example.org" tt "StackA" None in
  let r2 := CdkStack_checked lib "example.org" tt "StackB" west in
  fst r1 = inr tt
  /\ fst r2 = inr tt
  /\ built r1 = built r2
  /\ map node_id (built r1) = build_order
  /\ length (built r2) = 5.
Proof.
  cbv zeta. split; [reflexivity | split; [reflexivity |]].
  apply (returned_runs_agree
           (only_lookup (Scope := unit)
              (registry_lookup [("example.org", "Z1")]))
           (only_lookup (Scope := unit)
              (registry_lookup [("example.org", "Z1")]))
           "example.org" tt tt "StackA" "StackB"); reflexivity.
Defined.
